(** * Multi-weather dashboard: the city controller over its stores

    A shallow embedding of [server/controllers/cityController.js] and of
    the [City] schema ([server/models/City.js]).  The MongoDB collection is
    a finite map from [_id] to document, every handler is a function from
    the collection and the request to the new collection and the response,
    and the weather provider is an explicit argument of [getCities].  A
    route parameter and a provider payload are taken by what the handlers'
    operations make of them. *)

From Stdlib Require Import ZArith.
From Stdlib Require QArith Qround Lqa.
From stdpp Require Import gmap strings list sorting.

Local Open Scope Z_scope.

(** ** The City model *)

Module Mongoose.

Abbreviation ObjectId := N (only parsing).

(** A document of [citySchema] without its [_id], which is the key of the
    collection. *)
Record City := {
  userId : ObjectId;
  cityName : string;
  country : option string;
  favorite : bool;
  addedAt : Z;
}.

#[export] Instance City_eq_dec : EqDecision City.
Proof. solve_decision. Defined.

(** An error thrown by the model: [code] is [undefined] for a validation
    error and the server's number for a write error. *)
Record Error := {
  code : option Z;
  message : string;
}.

Definition ValidationError : Error :=
  {| code := None;
     message := "City validation failed: cityName: Path `cityName` is required." |}.

Definition DuplicateKey : Error :=
  {| code := Some 11000;
     message := "E11000 duplicate key error collection: cities" |}.

(** The [:id] route parameter as the cast of [_id] to ObjectId takes it:
    a string that denotes an ObjectId, or any other string, which the cast
    refuses. *)
Inductive RouteParam :=
| ObjectIdString (id : ObjectId)
| NotObjectId (raw : string).

#[export] Instance RouteParam_eq_dec : EqDecision RouteParam.
Proof. solve_decision. Defined.

Definition quote : string := String (Ascii.ascii_of_nat 34) EmptyString.

(** The error of a query whose [_id] does not cast; it has no [code]. *)
Definition CastError (raw : string) : Error :=
  {| code := None;
     message := "Cast to ObjectId failed for value " +:+ quote +:+ raw +:+ quote
                +:+ " (type string) at path " +:+ quote +:+ "_id" +:+ quote
                +:+ " for model " +:+ quote +:+ "City" +:+ quote |}.

(** [required: true] on a String path rejects [undefined] and the empty
    string. *)
Definition checkRequired (v : option string) : option string :=
  match v with
  | Some s => if decide (s = "") then None else Some s
  | None => None
  end.

(** [citySchema.index({ userId: 1, cityName: 1 }, { unique: true })]: the
    key some stored document already holds. *)
Definition index_taken (st : gmap N City) (u : ObjectId) (n : string) : Prop :=
  map_Exists (λ _ d, userId d = u ∧ cityName d = n) st.

#[export] Instance index_taken_dec st u n : Decision (index_taken st u n).
Proof. unfold index_taken. apply _. Defined.

(** [City.create({ userId, cityName, country })]: the schema defaults
    ([favorite: false], [addedAt: Date.now]), validation, then one insert
    that the [_id] index and the compound unique index may refuse.  [id]
    is the ObjectId generated for the document and [now] the clock. *)
Definition create (st : gmap N City) (id : ObjectId) (now : Z)
    (u : ObjectId) (name country : option string)
  : gmap N City * (Error + ObjectId * City) :=
  match checkRequired name with
  | None => (st, inl ValidationError)
  | Some n =>
      let doc := {| userId := u; cityName := n; country := country;
                    favorite := false; addedAt := now |} in
      if decide (is_Some (st !! id) ∨ index_taken st u n)
      then (st, inl DuplicateKey)
      else (<[id := doc]> st, inr (id, doc))
  end.

(** [.sort({ addedAt: -1 })]: the later document comes first. *)
Definition newer_first (a b : ObjectId * City) : Prop :=
  addedAt (snd b) ≤ addedAt (snd a).

#[export] Instance newer_first_dec a b : Decision (newer_first a b).
Proof. unfold newer_first. apply _. Defined.

(** [City.find({ userId })], in the collection's own order. *)
Definition find (st : gmap N City) (u : ObjectId) : list (ObjectId * City) :=
  filter (λ p, userId (snd p) = u) (map_to_list st).

Definition sort_addedAt_desc (l : list (ObjectId * City)) : list (ObjectId * City) :=
  merge_sort newer_first l.

(** [City.findOne({ _id, userId })]: the query is cast first, and a
    parameter that is no ObjectId makes it throw. *)
Definition findOne (st : gmap N City) (param : RouteParam) (u : ObjectId)
  : Error + option (ObjectId * City) :=
  match param with
  | NotObjectId raw => inl (CastError raw)
  | ObjectIdString id =>
      inr match st !! id with
          | Some d => if decide (userId d = u) then Some (id, d) else None
          | None => None
          end
  end.

(** The assignment [city.favorite = b] on a loaded document. *)
Definition set_favorite (b : bool) (d : City) : City :=
  {| userId := userId d; cityName := cityName d; country := country d;
     favorite := b; addedAt := addedAt d |}.

(** [city.save()] of a loaded document writes it back under its [_id]. *)
Definition save (st : gmap N City) (city : ObjectId * City) : gmap N City :=
  <[fst city := snd city]> st.

(** [city.deleteOne()] *)
Definition deleteOne (st : gmap N City) (city : ObjectId * City) : gmap N City :=
  delete (fst city) st.

(** Every stored document passed the schema's validation. *)
Definition validated (st : gmap N City) : Prop :=
  map_Forall (λ _ d, cityName d ≠ "") st.

(** The compound index holds no key twice. *)
Definition unique_index (st : gmap N City) : Prop :=
  ∀ i j d e, st !! i = Some d → st !! j = Some e →
    userId d = userId e → cityName d = cityName e → i = j.

End Mongoose.

(** ** The weather provider and the HTTP client *)

Module Weather.

Import Stdlib.Strings.Ascii QArith_base.

(** A JSON value of the payload that the handler copies as it is; an
    array or an object is held as its JSON text. *)
Inductive Value :=
| JNull
| JBool (b : bool)
| JNumber (q : Q)
| JString (s : string)
| JComposite (text : string).

(** The payload is taken by what the handler's operations make of it.
    - A copied property is [Some] of its JSON value, or [None] when the
      payload does not have it ([undefined]).
    - A property given to [Math.round] is [Some] of the finite number its
      conversion to a number yields, or [None] when the conversion yields
      NaN or an infinity (a missing property among them).
    - [conditions] of the current conditions is [Some] of the string, or
      [None] when it is no string, so that [.toLowerCase()] throws. *)

(** One non-null entry of [response.data.days]. *)
Record Day := {
  datetime : option Value;
  tempmin : option Q;
  tempmax : option Q;
  day_conditions : option Value;
  day_icon : option Value;
}.

(** [response.data.currentConditions], when it is neither [undefined] nor
    [null]. *)
Record CurrentConditions := {
  temp : option Q;
  conditions : option string;
  feelslike : option Q;
  humidity : option Value;
  windspeed : option Value;
}.

(** [response.data]. [currentConditions] is [None] when it is [undefined]
    or [null] (reading its properties throws); [days] is [None] when it is
    no array ([.slice(1, 6).map] throws), and an entry of [days] is [None]
    when it is [null] (reading its properties throws). *)
Record TimelineData := {
  currentConditions : option CurrentConditions;
  days : option (list (option Day));
}.

(** What the provider does with one request: it answers with a payload,
    the call fails (network error, rate limit, non-2xx status), or no
    answer ever arrives. *)
Inductive NetBehaviour :=
| Responds (data : TimelineData)
| Fails (message : string)
| Silent.

(** The second argument of [axios.get]. [timeout] is [None] when the
    caller leaves it out; axios then waits without limit. *)
Record AxiosConfig := {
  params : list (string * option string);
  timeout : option N;
}.

Abbreviation Network := (string → list (string * option string) → NetBehaviour) (only parsing).

Inductive Promise (A : Type) :=
| Resolved (a : A)
| Rejected (message : string)
| Pending.
Arguments Resolved {A} a.
Arguments Rejected {A} message.
Arguments Pending {A}.

(** [axios.get(url, config)]: a silent provider rejects the promise only
    when the configuration carries a positive timeout. *)
Definition axios_get (net : Network) (url : string) (cfg : AxiosConfig)
  : Promise TimelineData :=
  match net url (params cfg) with
  | Responds data => Resolved data
  | Fails m => Rejected m
  | Silent =>
      match timeout cfg with
      | Some t => if decide (t = 0%N) then Pending
                  else Rejected "timeout exceeded"
      | None => Pending
      end
  end.

(** [Promise.all]: rejects with the first rejection, otherwise waits for
    every element. *)
Fixpoint Promise_all {A} (ps : list (Promise A)) : Promise (list A) :=
  match ps with
  | [] => Resolved []
  | p :: ps' =>
      match p, Promise_all ps' with
      | Rejected m, _ => Rejected m
      | _, Rejected m => Rejected m
      | Pending, _ => Pending
      | _, Pending => Pending
      | Resolved a, Resolved l => Resolved (a :: l)
      end
  end.

(** [Math.round] on a finite number: the nearest integer, halves
    upwards. *)
Definition Math_round (x : Q) : Z := Qround.Qfloor (Qplus x (Qmake 1 2)).

(** [Math.round] of a property as [res.json] sends it: the rounded number,
    or [null] (here [None]) for NaN and the infinities, which [Math.round]
    returns as they are. *)
Definition rounded (x : option Q) : option Z := Math_round <$> x.

Definition hex_digit (n : nat) : ascii :=
  nth n (Stdlib.Strings.String.list_ascii_of_string "0123456789ABCDEF") "0"%char.

Definition unreserved (c : ascii) : bool :=
  let n := nat_of_ascii c in
  ((65 <=? n) && (n <=? 90) || (97 <=? n) && (n <=? 122)
   || (48 <=? n) && (n <=? 57)
   || existsb (Ascii.eqb c)
        (Stdlib.Strings.String.list_ascii_of_string "-_.!~*'()"))%nat.

(** [encodeURIComponent] on the UTF-8 bytes of the string. *)
Fixpoint encodeURIComponent (s : string) : string :=
  match s with
  | EmptyString => EmptyString
  | String c s' =>
      if unreserved c then String c (encodeURIComponent s')
      else let n := nat_of_ascii c in
           String "%" (String (hex_digit (n / 16)) (String (hex_digit (n mod 16))
             (encodeURIComponent s')))
  end.

Definition lower (c : ascii) : ascii :=
  let n := nat_of_ascii c in
  if ((65 <=? n) && (n <=? 90))%nat then ascii_of_nat (n + 32) else c.

(** [String.prototype.toLowerCase] on ASCII text: the letters A to Z are
    lowered and every other byte is kept, so a cased letter outside ASCII
    stays as it is here while JavaScript lowers it. *)
Fixpoint toLowerCase (s : string) : string :=
  match s with
  | EmptyString => EmptyString
  | String c s' => String (lower c) (toLowerCase s')
  end.

End Weather.

(** ** The controller *)

Module cityController.

(** What a handler reads from [req]: the identity the auth middleware
    attached, the [:id] route parameter and the JSON body.  The body is
    taken with string properties only (what the client sends); a property
    it does not have is [undefined]. *)
Record Request := {
  userId : Mongoose.ObjectId;
  params_id : Mongoose.RouteParam;
  body : gmap string string;
}.

(** One element of [forecastDays], as sent: a rounded temperature is
    [None] for [null], a copied property is [None] when the object does
    not have it. *)
Record ForecastDay := {
  date : option Weather.Value;
  minTemp : option Z;
  maxTemp : option Z;
  fc_description : option Weather.Value;
  icon : option Weather.Value;
}.

(** [currentWeather], as sent: [temperature] is [None] for [null];
    [feelsLike] is [None] when the object does not have it and [Some None]
    when it is [null]; a copied property is [None] when the object does
    not have it. *)
Record CurrentWeather := {
  temperature : option Z;
  description : string;
  feelsLike : option (option Z);
  humidity : option Weather.Value;
  windSpeed : option Weather.Value;
}.

(** One element of [citiesWithWeather]. *)
Record CityWeather := {
  _id : Mongoose.ObjectId;
  cityName : string;
  isFavorite : bool;
  currentWeather : CurrentWeather;
  forecast : list ForecastDay;
}.

(** The payloads given to [res.json]. *)
Inductive Json :=
| JCity (city : Mongoose.ObjectId * Mongoose.City)
| JMessage (message : string)
| JListing (favorites cities : list CityWeather).

Record Response := {
  status : Z;
  json : Json;
}.

Definition createCity (st : gmap N Mongoose.City) (id : Mongoose.ObjectId)
    (now : Z) (req : Request) : gmap N Mongoose.City * Response :=
  let cityName := body req !! "cityName" in
  let country := body req !! "country" in
  match Mongoose.create st id now (userId req) cityName country with
  | (st', inr city) => (st', {| status := 201; json := JCity city |})
  | (st', inl error) =>
      if decide (Mongoose.code error = Some 11000)
      then (st', {| status := 400; json := JMessage "City already added" |})
      else (st', {| status := 500; json := JMessage (Mongoose.message error) |})
  end.

Definition timeline : string :=
  "https://weather.visualcrossing.com/VisualCrossingWebServices/rest/services/timeline/".

(** The template string given to [axios.get]. *)
Definition endpoint (cityName : string) : string :=
  timeline +:+ Weather.encodeURIComponent cityName.

(** The configuration [getCities] gives to [axios.get]: three query
    parameters and nothing else. [key] is [process.env.WEATHER_API_KEY]. *)
Definition config (key : option string) : Weather.AxiosConfig :=
  {| Weather.params := [("unitGroup", Some "metric"); ("key", key);
                        ("contentType", Some "json")];
     Weather.timeout := None |}.

(** [Array.prototype.slice(b, e)] for indices [0 <= b <= e]. *)
Definition slice {A} (b e : nat) (l : list A) : list A := take (e - b) (drop b l).

Definition forecastDay (day : Weather.Day) : ForecastDay :=
  {| date := Weather.datetime day;
     minTemp := Weather.rounded (Weather.tempmin day);
     maxTemp := Weather.rounded (Weather.tempmax day);
     fc_description := Weather.day_conditions day;
     icon := Weather.day_icon day |}.

(** What the provider does with the request [getCities] makes for a
    city. *)
Definition asked (net : Weather.Network) (key : option string)
    (city : Mongoose.ObjectId * Mongoose.City) : Weather.NetBehaviour :=
  net (endpoint (Mongoose.cityName (snd city))) (Weather.params (config key)).

(** The body of the inner [try]; [None] is a thrown TypeError: [days] is
    no array, one of the entries 1 to 5 is [null], [currentConditions] is
    [undefined] or [null], or its [conditions] is no string. *)
Definition live (city : Mongoose.ObjectId * Mongoose.City)
    (data : Weather.TimelineData) : option CityWeather :=
  ds ← Weather.days data;
  forecastDays ← mapM (fmap forecastDay) (slice 1 6 ds);
  current ← Weather.currentConditions data;
  conditions ← Weather.conditions current;
  Some {| _id := fst city;
          cityName := Mongoose.cityName (snd city);
          isFavorite := Mongoose.favorite (snd city);
          currentWeather :=
            {| temperature := Weather.rounded (Weather.temp current);
               description := Weather.toLowerCase conditions;
               feelsLike := Some (Weather.rounded (Weather.feelslike current));
               humidity := Weather.humidity current;
               windSpeed := Weather.windspeed current |};
          forecast := forecastDays |}.

(** The inner [catch]. *)
Definition unavailable (city : Mongoose.ObjectId * Mongoose.City) : CityWeather :=
  {| _id := fst city;
     cityName := Mongoose.cityName (snd city);
     isFavorite := Mongoose.favorite (snd city);
     currentWeather :=
       {| temperature := None; description := "unavailable";
          feelsLike := None; humidity := None; windSpeed := None |};
     forecast := [] |}.

(** The async callback of [cities.map]. *)
Definition withWeather (net : Weather.Network) (key : option string)
    (city : Mongoose.ObjectId * Mongoose.City) : Weather.Promise CityWeather :=
  match Weather.axios_get net (endpoint (Mongoose.cityName (snd city))) (config key) with
  | Weather.Resolved data =>
      match live city data with
      | Some record => Weather.Resolved record
      | None => Weather.Resolved (unavailable city)
      end
  | Weather.Rejected _ => Weather.Resolved (unavailable city)
  | Weather.Pending => Weather.Pending
  end.

(** [getCities]; [None] when no response is ever sent. *)
Definition getCities (st : gmap N Mongoose.City) (net : Weather.Network)
    (key : option string) (req : Request) : option Response :=
  let cities := Mongoose.sort_addedAt_desc (Mongoose.find st (userId req)) in
  match Weather.Promise_all (withWeather net key <$> cities) with
  | Weather.Resolved citiesWithWeather =>
      let favorites := filter (λ city, isFavorite city = true) citiesWithWeather in
      Some {| status := 200; json := JListing favorites citiesWithWeather |}
  | Weather.Rejected m => Some {| status := 500; json := JMessage m |}
  | Weather.Pending => None
  end.

Definition toggleFavorite (st : gmap N Mongoose.City) (req : Request)
  : gmap N Mongoose.City * Response :=
  match Mongoose.findOne st (params_id req) (userId req) with
  | inl error =>
      (st, {| status := 500; json := JMessage (Mongoose.message error) |})
  | inr None => (st, {| status := 404; json := JMessage "City not found" |})
  | inr (Some city) =>
      let city' := (fst city,
                    Mongoose.set_favorite (negb (Mongoose.favorite (snd city)))
                      (snd city)) in
      (Mongoose.save st city', {| status := 200; json := JCity city' |})
  end.

Definition deleteCity (st : gmap N Mongoose.City) (req : Request)
  : gmap N Mongoose.City * Response :=
  match Mongoose.findOne st (params_id req) (userId req) with
  | inl error =>
      (st, {| status := 500; json := JMessage (Mongoose.message error) |})
  | inr None => (st, {| status := 404; json := JMessage "City not found" |})
  | inr (Some city) =>
      (Mongoose.deleteOne st city,
       {| status := 200; json := JMessage "City removed" |})
  end.

(** The collections the handlers can produce from the empty one. *)
Inductive reachable : gmap N Mongoose.City → Prop :=
| reachable_empty : reachable ∅
| reachable_create st id now req :
    reachable st → reachable (fst (createCity st id now req))
| reachable_toggle st req :
    reachable st → reachable (fst (toggleFavorite st req))
| reachable_delete st req :
    reachable st → reachable (fst (deleteCity st req)).

(** The 404 answer of [toggleFavorite] and [deleteCity]. *)
Definition NotFound : Response :=
  {| status := 404; json := JMessage "City not found" |}.

(** Their 500 answer to a route parameter that is no ObjectId. *)
Definition CastFailed (raw : string) : Response :=
  {| status := 500;
     json := JMessage (Mongoose.message (Mongoose.CastError raw)) |}.

End cityController.


(** ** A small scenario: two users, three cities *)

Module Scenario.

Import cityController.

Definition alice : N := 1.
Definition bob : N := 2.

Definition request (u i : N) (b : gmap string string) : Request :=
  {| userId := u; params_id := Mongoose.ObjectIdString i; body := b |}.

(** A request whose [:id] is no ObjectId. *)
Definition request_raw (u : N) (raw : string) (b : gmap string string)
  : Request :=
  {| userId := u; params_id := Mongoose.NotObjectId raw; body := b |}.

Definition named (n : string) : gmap string string := {[ "cityName" := n ]}.

(** Alice adds Paris and then Oslo, Bob adds Rome in between. *)
Definition st1 : gmap N Mongoose.City :=
  fst (createCity ∅ 10 1000 (request alice 0 (named "Paris"))).
Definition st2 : gmap N Mongoose.City :=
  fst (createCity st1 11 2000 (request alice 0 (named "Oslo"))).
Definition st3 : gmap N Mongoose.City :=
  fst (createCity st2 12 1500 (request bob 0 (named "Rome"))).

Definition paris : Mongoose.City :=
  {| Mongoose.userId := alice; Mongoose.cityName := "Paris";
     Mongoose.country := None; Mongoose.favorite := false;
     Mongoose.addedAt := 1000 |}.

Definition oslo : Mongoose.City :=
  {| Mongoose.userId := alice; Mongoose.cityName := "Oslo";
     Mongoose.country := None; Mongoose.favorite := false;
     Mongoose.addedAt := 2000 |}.

Definition day (date : string) (lo hi : QArith_base.Q) : option Weather.Day :=
  Some {| Weather.datetime := Some (Weather.JString date);
          Weather.tempmin := Some lo; Weather.tempmax := Some hi;
          Weather.day_conditions := Some (Weather.JString "Clear");
          Weather.day_icon := Some (Weather.JString "clear-day") |}.

Definition now_cloudy : Weather.CurrentConditions :=
  {| Weather.temp := Some (QArith_base.Qmake 37 2);
     Weather.conditions := Some "Partially cloudy";
     Weather.feelslike := Some (QArith_base.Qmake (-5) 2);
     Weather.humidity := Some (Weather.JNumber (QArith_base.Qmake 611 10));
     Weather.windspeed := Some (Weather.JNumber (QArith_base.Qmake 72 5)) |}.




(** A payload with today and six more days. *)
Definition seven_days : Weather.TimelineData :=
  {| Weather.currentConditions := Some now_cloudy;
     Weather.days :=
       Some [day "2026-11-02" (QArith_base.Qmake 21 2) (QArith_base.Qmake 35 2);
             day "2026-11-03" (QArith_base.Qmake 47 5) (QArith_base.Qmake 33 2);
             day "2026-11-04" (QArith_base.Qmake 8 1) (QArith_base.Qmake 15 1);
             day "2026-11-05" (QArith_base.Qmake 15 2) (QArith_base.Qmake 29 2);
             day "2026-11-06" (QArith_base.Qmake (-1) 2) (QArith_base.Qmake 9 1);
             day "2026-11-07" (QArith_base.Qmake (-3) 2) (QArith_base.Qmake 17 2);
             day "2026-11-08" (QArith_base.Qmake 2 1) (QArith_base.Qmake 10 1)] |}.

(** A provider that answers every city but Oslo, for which the call
    fails. *)
Definition oslo_fails (url : string) (params : list (string * option string))
  : Weather.NetBehaviour :=
  if decide (url = endpoint "Oslo")
  then Weather.Fails "Request failed with status code 429"
  else Weather.Responds seven_days.

(** A provider that never answers for Oslo. *)
Definition oslo_silent (url : string) (params : list (string * option string))
  : Weather.NetBehaviour :=
  if decide (url = endpoint "Oslo") then Weather.Silent
  else Weather.Responds seven_days.

End Scenario.

(** ** Properties of the model and of the controller *)

Import cityController.

#[local] Set Warnings "-clear-no-such-hyp".

Section store_lemmas.

Implicit Types (st : gmap N Mongoose.City) (d : Mongoose.City).
Implicit Types (i id u : N) (p city : N * Mongoose.City).

Lemma find_spec st u i d :
  (i, d) ∈ Mongoose.find st u ↔ st !! i = Some d ∧ Mongoose.userId d = u.
Proof.
  unfold Mongoose.find.
  rewrite list_elem_of_filter, elem_of_map_to_list. simpl. tauto.
Qed.

Lemma listing_spec st u i d :
  (i, d) ∈ Mongoose.sort_addedAt_desc (Mongoose.find st u)
  ↔ st !! i = Some d ∧ Mongoose.userId d = u.
Proof.
  unfold Mongoose.sort_addedAt_desc.
  rewrite (merge_sort_Permutation Mongoose.newer_first). apply find_spec.
Qed.

Lemma findOne_Some st id u city :
  Mongoose.findOne st (Mongoose.ObjectIdString id) u = inr (Some city)
  ↔ fst city = id ∧ st !! id = Some (snd city) ∧ Mongoose.userId (snd city) = u.
Proof.
  unfold Mongoose.findOne. destruct city as [j e]. simpl.
  destruct (st !! id) as [d|] eqn:E; [destruct (decide _)|]; naive_solver.
Qed.

Lemma findOne_None st id u :
  Mongoose.findOne st (Mongoose.ObjectIdString id) u = inr None
  ↔ ¬ ∃ d, st !! id = Some d ∧ Mongoose.userId d = u.
Proof.
  unfold Mongoose.findOne.
  destruct (st !! id) as [d|] eqn:E; [destruct (decide _)|]; naive_solver.
Qed.

Lemma index_taken_spec st u n :
  Mongoose.index_taken st u n
  ↔ ∃ i d, st !! i = Some d ∧ Mongoose.userId d = u ∧ Mongoose.cityName d = n.
Proof. unfold Mongoose.index_taken. rewrite map_Exists_lookup. naive_solver. Qed.

End store_lemmas.

Section promise_lemmas.

Import Weather.

#[local] Instance Resolved_inj {A} : Inj (=) (=) (@Resolved A).
Proof. by intros a b [= ->]. Qed.

Lemma fmap_Resolved_inj {A} (l k : list A) :
  Resolved <$> l = Resolved <$> k → l = k.
Proof. apply (inj (fmap Resolved)). Qed.

Lemma Promise_all_fmap_Resolved {A} (rs : list A) :
  Promise_all (Resolved <$> rs) = Resolved rs.
Proof. induction rs as [|r rs IH]; csimpl; [done|]. by rewrite IH. Qed.

Lemma Promise_all_Resolved {A} (ps : list (Promise A)) rs :
  Promise_all ps = Resolved rs → ps = Resolved <$> rs.
Proof.
  revert rs; induction ps as [|p ps IH]; intros rs; simpl.
  - by intros [= <-].
  - destruct p, (Promise_all ps) eqn:E; try done.
    intros [= <-]. csimpl. f_equal. by apply IH.
Qed.

Lemma Promise_all_Rejected {A} (ps : list (Promise A)) m :
  Promise_all ps = Rejected m → Rejected m ∈ ps.
Proof.
  induction ps as [|p ps IH]; simpl; [done|].
  destruct p, (Promise_all ps) eqn:E; try done; intros [= <-];
    try (left; done); right; by apply IH.
Qed.

Lemma Promise_all_Pending {A} (ps : list (Promise A)) :
  Promise_all ps = Pending → Pending ∈ ps.
Proof.
  induction ps as [|p ps IH]; simpl; [done|].
  destruct p, (Promise_all ps) eqn:E; try done; intros _;
    try (left; done); right; by apply IH.
Qed.

End promise_lemmas.

Section controller_lemmas.

Implicit Types (st : gmap N Mongoose.City) (d : Mongoose.City).
Implicit Types (city : N * Mongoose.City) (req : Request).
Implicit Types (net : string → list (string * option string) → Weather.NetBehaviour).

Lemma withWeather_asked net key city :
  withWeather net key city =
    match asked net key city with
    | Weather.Responds data =>
        Weather.Resolved (default (unavailable city) (live city data))
    | Weather.Fails _ => Weather.Resolved (unavailable city)
    | Weather.Silent => Weather.Pending
    end.
Proof.
  unfold withWeather, Weather.axios_get, asked.
  destruct (net _ _) as [data|m|]; simpl; try done.
  by destruct (live city data).
Qed.

Lemma withWeather_never_rejects net key city m :
  withWeather net key city ≠ Weather.Rejected m.
Proof. rewrite withWeather_asked. by destruct (asked net key city). Qed.

Lemma withWeather_Pending net key city :
  withWeather net key city = Weather.Pending ↔ asked net key city = Weather.Silent.
Proof. rewrite withWeather_asked. by destruct (asked net key city). Qed.

Lemma live_persisted city data r :
  live city data = Some r →
  _id r = fst city ∧ cityName r = Mongoose.cityName (snd city)
  ∧ isFavorite r = Mongoose.favorite (snd city).
Proof.
  unfold live. intros H.
  destruct (Weather.days data); simplify_option_eq; done.
Qed.

Lemma withWeather_persisted net key city r :
  withWeather net key city = Weather.Resolved r →
  _id r = fst city ∧ cityName r = Mongoose.cityName (snd city)
  ∧ isFavorite r = Mongoose.favorite (snd city).
Proof.
  rewrite withWeather_asked.
  destruct (asked net key city) as [data|m|]; [|by intros [= <-]|done].
  destruct (live city data) as [r'|] eqn:E; simpl; intros [= <-]; [|done].
  by apply live_persisted in E.
Qed.

Lemma branches_never_reject net key (cities : list (N * Mongoose.City)) m :
  Weather.Rejected m ∉ withWeather net key <$> cities.
Proof.
  intros (city & H & _)%list_elem_of_fmap.
  by apply eq_sym, withWeather_never_rejects in H.
Qed.

(** The two outcomes of [getCities]: a listing of what every branch
    resolved to, or no response while a branch is pending. *)
Lemma getCities_Some st net key req r :
  getCities st net key req = Some r ↔
  ∃ cs, withWeather net key <$> Mongoose.sort_addedAt_desc (Mongoose.find st (userId req))
          = Weather.Resolved <$> cs
        ∧ r = {| status := 200;
                 json := JListing (filter (λ c, isFavorite c = true) cs) cs |}.
Proof.
  unfold getCities.
  destruct (Weather.Promise_all _) as [cs|m|] eqn:E.
  - apply Promise_all_Resolved in E. split.
    + intros [= <-]. eauto.
    + intros (cs' & H & ->). rewrite E in H.
      apply fmap_Resolved_inj in H. by subst.
  - apply Promise_all_Rejected in E. by apply branches_never_reject in E.
  - split; [done|]. intros (cs & H & _).
    rewrite H, Promise_all_fmap_Resolved in E. done.
Qed.

Lemma getCities_None st net key req :
  getCities st net key req = None ↔
  ∃ city, city ∈ Mongoose.sort_addedAt_desc (Mongoose.find st (userId req))
          ∧ asked net key city = Weather.Silent.
Proof.
  unfold getCities.
  destruct (Weather.Promise_all _) as [cs|m|] eqn:E.
  - split; [done|]. intros (city & Hin & Hs).
    apply Promise_all_Resolved in E.
    apply withWeather_Pending in Hs.
    assert (Weather.Pending ∈ Weather.Resolved <$> cs) as (? & [=] & _)%list_elem_of_fmap.
    rewrite <- E, <- Hs. by apply list_elem_of_fmap_2.
  - apply Promise_all_Rejected in E. by apply branches_never_reject in E.
  - split; [|done]. intros _.
    apply Promise_all_Pending, list_elem_of_fmap in E as (city & H & Hin).
    exists city. split; [done|]. by apply withWeather_Pending.
Qed.

End controller_lemmas.

Section handlers.

Implicit Types (st : gmap N Mongoose.City) (d : Mongoose.City).
Implicit Types (city : N * Mongoose.City) (req : Request).

Lemma resolved_record net key (cities : list (N * Mongoose.City)) cs r :
  withWeather net key <$> cities = Weather.Resolved <$> cs → r ∈ cs →
  ∃ city, city ∈ cities ∧ withWeather net key city = Weather.Resolved r.
Proof.
  intros E Hr.
  assert (Weather.Resolved r ∈ withWeather net key <$> cities) as Hin.
  { rewrite E. by apply list_elem_of_fmap_2. }
  apply list_elem_of_fmap in Hin as (city & H & Hin). eauto.
Qed.

Lemma toggleFavorite_found st req id d :
  params_id req = Mongoose.ObjectIdString id →
  st !! id = Some d → Mongoose.userId d = userId req →
  toggleFavorite st req =
    let d' := Mongoose.set_favorite (negb (Mongoose.favorite d)) d in
    (<[id := d']> st, {| status := 200; json := JCity (id, d') |}).
Proof.
  intros Hp Hd Hu. unfold toggleFavorite. rewrite Hp.
  assert (Mongoose.findOne st (Mongoose.ObjectIdString id) (userId req)
          = inr (Some (id, d))) as ->; [|done].
  by apply findOne_Some.
Qed.

Lemma deleteCity_found st req id d :
  params_id req = Mongoose.ObjectIdString id →
  st !! id = Some d → Mongoose.userId d = userId req →
  deleteCity st req =
    (delete id st, {| status := 200; json := JMessage "City removed" |}).
Proof.
  intros Hp Hd Hu. unfold deleteCity. rewrite Hp.
  assert (Mongoose.findOne st (Mongoose.ObjectIdString id) (userId req)
          = inr (Some (id, d))) as ->; [|done].
  by apply findOne_Some.
Qed.

Lemma toggleFavorite_absent st req id :
  params_id req = Mongoose.ObjectIdString id →
  (¬ ∃ d, st !! id = Some d ∧ Mongoose.userId d = userId req) →
  toggleFavorite st req = (st, NotFound).
Proof.
  intros Hp H%findOne_None. unfold toggleFavorite. by rewrite Hp, H.
Qed.

Lemma deleteCity_absent st req id :
  params_id req = Mongoose.ObjectIdString id →
  (¬ ∃ d, st !! id = Some d ∧ Mongoose.userId d = userId req) →
  deleteCity st req = (st, NotFound).
Proof.
  intros Hp H%findOne_None. unfold deleteCity. by rewrite Hp, H.
Qed.

Lemma toggleFavorite_malformed st req raw :
  params_id req = Mongoose.NotObjectId raw →
  toggleFavorite st req = (st, CastFailed raw).
Proof. intros Hp. unfold toggleFavorite. by rewrite Hp. Qed.

Lemma deleteCity_malformed st req raw :
  params_id req = Mongoose.NotObjectId raw →
  deleteCity st req = (st, CastFailed raw).
Proof. intros Hp. unfold deleteCity. by rewrite Hp. Qed.

(** The three cases of a request that names a city: the parameter is no
    ObjectId, it names no city of the caller, or it names one. *)
Lemma request_cases st req :
  (∃ raw, params_id req = Mongoose.NotObjectId raw)
  ∨ (∃ id, params_id req = Mongoose.ObjectIdString id
           ∧ ¬ ∃ d, st !! id = Some d ∧ Mongoose.userId d = userId req)
  ∨ (∃ id d, params_id req = Mongoose.ObjectIdString id
             ∧ st !! id = Some d ∧ Mongoose.userId d = userId req).
Proof.
  destruct (params_id req) as [id|raw]; [|by eauto].
  destruct (st !! id) as [d|] eqn:E.
  - destruct (decide (Mongoose.userId d = userId req)); [by eauto 10|].
    right. left. exists id. split; [done|]. naive_solver.
  - right. left. exists id. split; [done|]. naive_solver.
Qed.

(** C1. Data isolation: a city stored for one user is not in the listing
    of another user, is absent from what [getCities] answers to that other
    user, and is left as it is in the collection by that other user's
    favorite toggle and delete, whatever id they name. *)
Theorem data_isolation st net key req i d :
  st !! i = Some d → Mongoose.userId d ≠ userId req →
  ((i, d) ∉ Mongoose.sort_addedAt_desc (Mongoose.find st (userId req)))
  ∧ (∀ r favs cs, getCities st net key req = Some r →
       json r = JListing favs cs → (i ∉ _id <$> cs) ∧ (i ∉ _id <$> favs))
  ∧ fst (toggleFavorite st req) !! i = Some d
  ∧ json (snd (toggleFavorite st req)) ≠ JCity (i, d)
  ∧ fst (deleteCity st req) !! i = Some d.
Proof.
  intros Hd Hne.
  assert (∀ id e, params_id req = Mongoose.ObjectIdString id →
            st !! id = Some e → Mongoose.userId e = userId req → i ≠ id)
    as Hother by (intros id e _ He Hu ->; congruence).
  split_and!.
  - intros [_ Hu]%listing_spec. done.
  - intros r favs cs (cs' & E & ->)%getCities_Some [= <- <-].
    assert (i ∉ (_id <$> cs')) as Hcs.
    { intros (rec & Hid & Hrec)%list_elem_of_fmap.
      destruct (resolved_record _ _ _ _ _ E Hrec) as ([j e] & Hin & Hw).
      apply withWeather_persisted in Hw as (Hj & _). simpl in Hj.
      apply listing_spec in Hin as [He Hu]. congruence. }
    split; [done|].
    intros (rec & Hid & Hrec)%list_elem_of_fmap.
    apply list_elem_of_filter in Hrec as [_ Hrec].
    apply Hcs, list_elem_of_fmap. eauto.
  - destruct (request_cases st req)
      as [(raw & Hp)|[(id & Hp & Hno)|(id & e & Hp & He & Hu)]].
    + by rewrite (toggleFavorite_malformed _ _ _ Hp).
    + by rewrite (toggleFavorite_absent _ _ _ Hp Hno).
    + rewrite (toggleFavorite_found _ _ _ _ Hp He Hu). simpl.
      rewrite lookup_insert_ne; [done|]. intros <-. by eapply Hother.
  - destruct (request_cases st req)
      as [(raw & Hp)|[(id & Hp & Hno)|(id & e & Hp & He & Hu)]].
    + by rewrite (toggleFavorite_malformed _ _ _ Hp).
    + by rewrite (toggleFavorite_absent _ _ _ Hp Hno).
    + rewrite (toggleFavorite_found _ _ _ _ Hp He Hu). simpl.
      intros [= <- _]. by eapply Hother.
  - destruct (request_cases st req)
      as [(raw & Hp)|[(id & Hp & Hno)|(id & e & Hp & He & Hu)]].
    + by rewrite (deleteCity_malformed _ _ _ Hp).
    + by rewrite (deleteCity_absent _ _ _ Hp Hno).
    + rewrite (deleteCity_found _ _ _ _ Hp He Hu). simpl.
      rewrite lookup_delete_ne; [done|]. intros <-. by eapply Hother.
Qed.

(** C4 (as the code has it). [toggleFavorite] and [deleteCity] answer 404
    exactly when the route parameter is an ObjectId and the collection has
    no document with that id for the requesting owner; the whole result is
    then the unchanged collection with the one "City not found" answer, so
    an id stored for another owner and an id stored for nobody give
    identical results.  A parameter that is no ObjectId is answered 500
    with the cast error's message, whoever asks, and nothing is
    written. *)
Theorem notFound_exactly st req :
  let absent :=
    ∃ id, params_id req = Mongoose.ObjectIdString id
          ∧ ¬ ∃ d, st !! id = Some d ∧ Mongoose.userId d = userId req in
  (status (snd (toggleFavorite st req)) = 404 ↔ absent)
  ∧ (status (snd (deleteCity st req)) = 404 ↔ absent)
  ∧ (toggleFavorite st req = (st, NotFound) ↔ absent)
  ∧ (deleteCity st req = (st, NotFound) ↔ absent)
  ∧ (∀ req' id id' d,
       params_id req = Mongoose.ObjectIdString id →
       st !! id = Some d → Mongoose.userId d ≠ userId req →
       params_id req' = Mongoose.ObjectIdString id' → st !! id' = None →
       toggleFavorite st req = toggleFavorite st req'
       ∧ deleteCity st req = deleteCity st req')
  ∧ (∀ raw, params_id req = Mongoose.NotObjectId raw →
       toggleFavorite st req = (st, CastFailed raw)
       ∧ deleteCity st req = (st, CastFailed raw)).
Proof.
  intros absent.
  destruct (request_cases st req)
    as [(raw & Hp)|[(id & Hp & Hno)|(id & e & Hp & He & Hu)]].
  - assert (¬ absent) as Hn by (intros (id & ? & _); congruence).
    rewrite (toggleFavorite_malformed _ _ _ Hp), (deleteCity_malformed _ _ _ Hp).
    simpl. split_and!; try (split; [|by intros ?]).
    + done.
    + done.
    + intros H. by inversion H.
    + intros H. by inversion H.
    + intros req' id id' d. congruence.
    + intros raw' [= <-]%(eq_trans (eq_sym Hp)). done.
  - assert absent as Ha by (exists id; done).
    rewrite (toggleFavorite_absent _ _ _ Hp Hno), (deleteCity_absent _ _ _ Hp Hno).
    split_and!; try done.
    + intros req' id1 id' d _ _ _ Hp' Hnone.
      rewrite (toggleFavorite_absent _ _ _ Hp'), (deleteCity_absent _ _ _ Hp');
        [done| |]; intros (? & ? & _); congruence.
    + intros raw. congruence.
  - assert (¬ absent) as Hn.
    { intros (id' & Hp' & H). apply H. exists e.
      assert (id' = id) as -> by congruence. done. }
    rewrite (toggleFavorite_found _ _ _ _ Hp He Hu),
      (deleteCity_found _ _ _ _ Hp He Hu).
    simpl. split_and!; try (split; [|by intros ?]).
    + done.
    + done.
    + intros H. by inversion H.
    + intros H. by inversion H.
    + intros req' id1 id' d Hp1 Hd Hne. congruence.
    + intros raw. congruence.
Qed.

(** C5. [toggleFavorite] is an involution: for a city of the requesting
    owner the first call stores the negated flag, and a second call stores
    the original flag again, which restores the whole collection and is
    what the second answer shows. *)
Theorem toggleFavorite_involutive st req id d :
  params_id req = Mongoose.ObjectIdString id →
  st !! id = Some d → Mongoose.userId d = userId req →
  let st1 := fst (toggleFavorite st req) in
  let st2 := fst (toggleFavorite st1 req) in
  (Mongoose.favorite <$> st1 !! id) = Some (negb (Mongoose.favorite d))
  ∧ (Mongoose.favorite <$> st2 !! id) = Some (Mongoose.favorite d)
  ∧ st2 = st
  ∧ snd (toggleFavorite st1 req) = {| status := 200; json := JCity (id, d) |}.
Proof.
  intros Hp Hd Hu st1 st2. subst st2 st1.
  rewrite (toggleFavorite_found _ _ _ _ Hp Hd Hu). simpl.
  set (d' := Mongoose.set_favorite (negb (Mongoose.favorite d)) d).
  assert (Mongoose.set_favorite (negb (negb (Mongoose.favorite d))) d' = d)
    as Hback.
  { destruct d as [u n c f a]. unfold d', Mongoose.set_favorite. simpl.
    by rewrite negb_involutive. }
  rewrite (toggleFavorite_found _ _ id d' Hp) by (by rewrite ?lookup_insert_eq).
  simpl. rewrite Hback, insert_insert_eq, (insert_id _ _ _ Hd), lookup_insert_eq, Hd.
  done.
Qed.

End handlers.

Section creation.

Implicit Types (st : gmap N Mongoose.City) (d : Mongoose.City) (req : Request).

Lemma checkRequired_Some v n :
  Mongoose.checkRequired v = Some n ↔ v = Some n ∧ n ≠ "".
Proof.
  unfold Mongoose.checkRequired.
  destruct v as [s|]; [destruct (decide (s = ""))|]; naive_solver.
Qed.

(** The three ways out of [createCity]. *)
Lemma createCity_cases st id now req :
  createCity st id now req =
    match Mongoose.checkRequired (body req !! "cityName") with
    | None =>
        (st, {| status := 500;
                json := JMessage (Mongoose.message Mongoose.ValidationError) |})
    | Some n =>
        if decide (is_Some (st !! id) ∨ Mongoose.index_taken st (userId req) n)
        then (st, {| status := 400; json := JMessage "City already added" |})
        else
          let doc := {| Mongoose.userId := userId req; Mongoose.cityName := n;
                        Mongoose.country := body req !! "country";
                        Mongoose.favorite := false; Mongoose.addedAt := now |} in
          (<[id := doc]> st, {| status := 201; json := JCity (id, doc) |})
    end.
Proof.
  unfold createCity, Mongoose.create.
  destruct (Mongoose.checkRequired _) as [n|]; [|done].
  by destruct (decide _).
Qed.

(** A key the compound index already holds: the insert is refused with
    code 11000, which the handler turns into the 400 answer. *)
Lemma createCity_index_taken st id now req n :
  body req !! "cityName" = Some n → n ≠ "" →
  Mongoose.index_taken st (userId req) n →
  Mongoose.create st id now (userId req) (body req !! "cityName")
      (body req !! "country") = (st, inl Mongoose.DuplicateKey)
  ∧ createCity st id now req
    = (st, {| status := 400; json := JMessage "City already added" |}).
Proof.
  intros Hn Hne Htaken.
  assert (Mongoose.checkRequired (body req !! "cityName") = Some n) as Hreq
    by by apply checkRequired_Some.
  rewrite createCity_cases. unfold Mongoose.create. rewrite Hreq.
  destruct (decide _) as [|[]]; [done|by right].
Qed.

Lemma create_keeps_invariants st id now req :
  Mongoose.validated st ∧ Mongoose.unique_index st →
  Mongoose.validated (fst (createCity st id now req))
  ∧ Mongoose.unique_index (fst (createCity st id now req)).
Proof.
  intros [Hv Hu]. rewrite createCity_cases.
  destruct (Mongoose.checkRequired _) as [n|] eqn:Hreq; [|done].
  destruct (decide _) as [|Hfree]; [done|]. simpl.
  apply checkRequired_Some in Hreq as [_ Hne].
  assert (st !! id = None) as Hid.
  { destruct (st !! id) eqn:E; [|done]. destruct Hfree. left. eauto. }
  split.
  - by apply map_Forall_insert_2.
  - intros i j d e Hi Hj Hown Hname.
    apply lookup_insert_Some in Hi as [[<- <-]|[Hni Hi]];
      apply lookup_insert_Some in Hj as [[<- <-]|[Hnj Hj]]; simpl in *.
    + done.
    + destruct Hfree. right. apply index_taken_spec. eauto 6.
    + destruct Hfree. right. apply index_taken_spec. eauto 6.
    + eauto.
Qed.

Lemma toggle_keeps_invariants st req :
  Mongoose.validated st ∧ Mongoose.unique_index st →
  Mongoose.validated (fst (toggleFavorite st req))
  ∧ Mongoose.unique_index (fst (toggleFavorite st req)).
Proof.
  intros [Hv Hu].
  destruct (request_cases st req)
    as [(raw & Hp)|[(id & Hp & Hno)|(id & e & Hp & He & Hown)]];
    [by rewrite (toggleFavorite_malformed _ _ _ Hp)
    |by rewrite (toggleFavorite_absent _ _ _ Hp Hno)|].
  rewrite (toggleFavorite_found _ _ _ _ Hp He Hown). simpl. split.
  - apply map_Forall_insert_2; [|done]. simpl. by apply (Hv _ _ He).
  - intros i j d1 d2 Hi Hj Ho Hn.
    apply lookup_insert_Some in Hi as [[<- <-]|[Hni Hi]];
      apply lookup_insert_Some in Hj as [[<- <-]|[Hnj Hj]]; simpl in *; eauto.
Qed.

Lemma delete_keeps_invariants st req :
  Mongoose.validated st ∧ Mongoose.unique_index st →
  Mongoose.validated (fst (deleteCity st req))
  ∧ Mongoose.unique_index (fst (deleteCity st req)).
Proof.
  intros [Hv Hu].
  destruct (request_cases st req)
    as [(raw & Hp)|[(id & Hp & Hno)|(id & e & Hp & He & Hown)]];
    [by rewrite (deleteCity_malformed _ _ _ Hp)
    |by rewrite (deleteCity_absent _ _ _ Hp Hno)|].
  rewrite (deleteCity_found _ _ _ _ Hp He Hown). simpl. split.
  - by apply map_Forall_delete.
  - intros i j d1 d2 [_ Hi]%lookup_delete_Some [_ Hj]%lookup_delete_Some. eauto.
Qed.

(** Every collection the handlers produce holds validated documents and
    no (owner, name) pair twice. *)
Lemma reachable_invariants st :
  reachable st → Mongoose.validated st ∧ Mongoose.unique_index st.
Proof.
  induction 1 as [|st id now req _ IH|st req _ IH|st req _ IH].
  - split; [apply map_Forall_empty|]. intros i j d e Hi. by rewrite lookup_empty in Hi.
  - by apply create_keeps_invariants.
  - by apply toggle_keeps_invariants.
  - by apply delete_keeps_invariants.
Qed.

(** C3. Once a city with the pair (owner, cityName) is stored, a create
    call for the same pair is refused by the unique index inside the one
    insert ([City.create] returns the code-11000 write error), the handler
    answers 400 "City already added", the collection is left as it was,
    and the stored document stays the only one with that pair. *)
Theorem createCity_duplicate st id now req i d :
  reachable st → st !! i = Some d →
  Mongoose.userId d = userId req →
  body req !! "cityName" = Some (Mongoose.cityName d) →
  Mongoose.create st id now (userId req) (body req !! "cityName")
      (body req !! "country") = (st, inl Mongoose.DuplicateKey)
  ∧ Mongoose.code Mongoose.DuplicateKey = Some 11000
  ∧ createCity st id now req
    = (st, {| status := 400; json := JMessage "City already added" |})
  ∧ (∀ j e, fst (createCity st id now req) !! j = Some e →
       Mongoose.userId e = Mongoose.userId d →
       Mongoose.cityName e = Mongoose.cityName d → j = i).
Proof.
  intros [Hv Hu]%reachable_invariants Hd Hown Hname.
  destruct (createCity_index_taken st id now req (Mongoose.cityName d))
    as [Hcreate Hanswer]; [done|by apply (Hv _ _ Hd)| |].
  { apply index_taken_spec. eauto. }
  split_and!; [done|done|done|].
  rewrite Hanswer. simpl. intros j e He Ho Hn. by apply (Hu j i e d).
Qed.

(** C10. [createCity] takes the owner from [req.userId] alone: two requests
    with the same authenticated identity that agree on [cityName] and
    [country] give the same result whatever else their bodies hold (a
    [userId] or [ownerId] property included), and every document the call
    adds to the collection, which is the one it answers with, has
    [req.userId] as its owner. *)
Theorem createCity_owner_from_identity st id now req req' :
  userId req' = userId req →
  body req' !! "cityName" = body req !! "cityName" →
  body req' !! "country" = body req !! "country" →
  createCity st id now req' = createCity st id now req
  ∧ (∀ v w, createCity st id now
              {| userId := userId req; params_id := params_id req;
                 body := <["userId" := v]> (<["ownerId" := w]> (body req)) |}
            = createCity st id now req)
  ∧ (∀ j e, fst (createCity st id now req) !! j = Some e →
       st !! j ≠ Some e → Mongoose.userId e = userId req)
  ∧ (∀ city, json (snd (createCity st id now req)) = JCity city →
       Mongoose.userId (snd city) = userId req
       ∧ fst (createCity st id now req) !! fst city = Some (snd city)).
Proof.
  intros Hu Hn Hc. split_and!.
  - rewrite !createCity_cases, Hu, Hn, Hc. done.
  - intros v w. rewrite !createCity_cases. simpl.
    by rewrite !lookup_insert_ne.
  - intros j e. rewrite createCity_cases.
    destruct (Mongoose.checkRequired _) as [n|]; [|done].
    destruct (decide _); [done|]. simpl.
    intros [[<- <-]|[_ He]]%lookup_insert_Some; [done|]. by intros [].
  - intros city. rewrite createCity_cases.
    destruct (Mongoose.checkRequired _) as [n|]; [|done].
    destruct (decide _); [done|]. simpl. intros [= <-]. simpl.
    by rewrite lookup_insert_eq.
Qed.

End creation.

Section listing.

Implicit Types (st : gmap N Mongoose.City) (d : Mongoose.City).
Implicit Types (city : N * Mongoose.City) (req : Request).

#[local] Instance newer_first_trans : Transitive Mongoose.newer_first.
Proof. unfold Mongoose.newer_first. intros a b c. lia. Qed.

#[local] Instance newer_first_total : Total Mongoose.newer_first.
Proof. unfold Mongoose.newer_first. intros a b. lia. Qed.

Lemma StronglySorted_positions {A} (R : relation A) (l : list A) i j a b :
  StronglySorted R l → l !! i = Some a → l !! j = Some b → (i < j)%nat → R a b.
Proof.
  intros Hs. revert i j. induction Hs as [|x l Hs IH Hall]; intros i j; [done|].
  destruct i as [|i], j as [|j]; simpl; try lia.
  - intros [= <-] Hb _. rewrite Forall_forall in Hall.
    apply Hall, list_elem_of_lookup. eauto.
  - intros Ha Hb Hlt. apply (IH i j); [done|done|lia].
Qed.

(** What the resolved branches keep of the stored documents. *)
Lemma resolved_persisted net key (cities : list (N * Mongoose.City)) cs :
  withWeather net key <$> cities = Weather.Resolved <$> cs →
  _id <$> cs = fst <$> cities
  ∧ cityName <$> cs = (λ city, Mongoose.cityName (snd city)) <$> cities
  ∧ isFavorite <$> cs = (λ city, Mongoose.favorite (snd city)) <$> cities.
Proof.
  revert cs. induction cities as [|city cities IH]; intros [|r cs]; csimpl;
    try done.
  intros [= Hw Hrest]. apply withWeather_persisted in Hw as (-> & -> & ->).
  destruct (IH _ Hrest) as (-> & -> & ->). done.
Qed.

(** C8. The owner-scoped listing, [City.find({ userId }).sort({ addedAt: -1 })],
    holds exactly the owner's documents, each once, and is ordered by
    [addedAt] descending: an earlier position never has a smaller
    [addedAt] than a later one. *)
Theorem listing_newest_first st u :
  let cities := Mongoose.sort_addedAt_desc (Mongoose.find st u) in
  StronglySorted Mongoose.newer_first cities
  ∧ (∀ i j a b, cities !! i = Some a → cities !! j = Some b → (i < j)%nat →
       Mongoose.addedAt (snd b) ≤ Mongoose.addedAt (snd a))
  ∧ (∀ i d, (i, d) ∈ cities ↔ st !! i = Some d ∧ Mongoose.userId d = u)
  ∧ NoDup cities.
Proof.
  intros cities.
  assert (StronglySorted Mongoose.newer_first cities) as Hs.
  { apply (StronglySorted_merge_sort Mongoose.newer_first). }
  split_and!.
  - done.
  - intros i j a b Ha Hb Hlt.
    apply (StronglySorted_positions _ _ _ _ _ _ Hs Ha Hb Hlt).
  - intros i d. apply listing_spec.
  - unfold cities, Mongoose.sort_addedAt_desc, Mongoose.find.
    rewrite (merge_sort_Permutation Mongoose.newer_first).
    apply NoDup_filter, NoDup_map_to_list.
Qed.

(** C7. Every response of [getCities] is a 200 listing in which
    [favorites] is the filter of [cities] by [isFavorite] (the same records
    in the same relative order) and [cities] has one record for each
    document of the owner's listing, in the listing's order, with that
    document's id, name and favorite flag. *)
Theorem favorites_partition st net key req r :
  getCities st net key req = Some r →
  ∃ favs cs,
    r = {| status := 200; json := JListing favs cs |}
    ∧ favs = filter (λ c, isFavorite c = true) cs
    ∧ (∀ c, c ∈ favs ↔ c ∈ cs ∧ isFavorite c = true)
    ∧ favs `sublist_of` cs
    ∧ _id <$> cs
      = fst <$> Mongoose.sort_addedAt_desc (Mongoose.find st (userId req))
    ∧ isFavorite <$> cs
      = (λ city, Mongoose.favorite (snd city))
          <$> Mongoose.sort_addedAt_desc (Mongoose.find st (userId req))
    ∧ (∀ i, i ∈ _id <$> cs ↔
         ∃ d, st !! i = Some d ∧ Mongoose.userId d = userId req).
Proof.
  intros (cs & E & ->)%getCities_Some.
  exists (filter (λ c, isFavorite c = true) cs), cs.
  apply resolved_persisted in E as (Hid & _ & Hfav).
  split_and!; try done.
  - intros c. rewrite list_elem_of_filter. tauto.
  - apply sublist_filter.
  - intros i. rewrite Hid, list_elem_of_fmap. split.
    + intros ([j d] & -> & Hin). apply listing_spec in Hin. eauto.
    + intros (d & Hd & Hu). exists (i, d). split; [done|].
      by apply listing_spec.
Qed.

End listing.

Section fan_out.

Implicit Types (st : gmap N Mongoose.City) (d : Mongoose.City).
Implicit Types (city : N * Mongoose.City) (req : Request).

(** What the branch of a city resolves to once its call has settled. *)
Lemma withWeather_settled net key city :
  asked net key city ≠ Weather.Silent →
  withWeather net key city =
    Weather.Resolved
      match asked net key city with
      | Weather.Responds data => default (unavailable city) (live city data)
      | _ => unavailable city
      end.
Proof.
  intros Hs. rewrite withWeather_asked. by destruct (asked net key city).
Qed.

(** C2. Failure isolation: when every weather call of the request settles,
    [getCities] answers 200 with one record per city of the listing, in
    order; the record of a city whose call fails (or whose payload makes
    the parsing throw) is the placeholder with [temperature: null],
    [description: "unavailable"] and [forecast: []], and the record of a
    city whose call succeeds is its live record, whatever happens to the
    calls of the other cities. *)
Theorem failure_isolation st net key req :
  let cities := Mongoose.sort_addedAt_desc (Mongoose.find st (userId req)) in
  (∀ city, city ∈ cities → asked net key city ≠ Weather.Silent) →
  ∃ cs,
    getCities st net key req
      = Some {| status := 200;
                json := JListing (filter (λ c, isFavorite c = true) cs) cs |}
    ∧ length cs = length cities
    ∧ ∀ k city, cities !! k = Some city →
        (((∃ m, asked net key city = Weather.Fails m)
          ∨ (∃ data, asked net key city = Weather.Responds data
                     ∧ live city data = None)) →
         ∃ r, cs !! k = Some r
              ∧ r = unavailable city
              ∧ _id r = fst city
              ∧ temperature (currentWeather r) = None
              ∧ description (currentWeather r) = "unavailable"
              ∧ forecast r = [])
        ∧ (∀ data r, asked net key city = Weather.Responds data →
             live city data = Some r → cs !! k = Some r).
Proof.
  intros cities Hsettle.
  set (record := λ city,
         match asked net key city with
         | Weather.Responds data => default (unavailable city) (live city data)
         | _ => unavailable city
         end).
  exists (record <$> cities). split_and!.
  - apply getCities_Some. exists (record <$> cities). split; [|done].
    fold cities. rewrite <- list_fmap_compose.
    apply list_fmap_ext. intros k city Hk. simpl.
    apply withWeather_settled, Hsettle, list_elem_of_lookup. eauto.
  - by rewrite length_fmap.
  - intros k city Hk. rewrite list_lookup_fmap, Hk. simpl. split.
    + intros [[m Hm]|(data & Hdata & Hlive)]; exists (unavailable city);
        unfold record; [rewrite Hm|rewrite Hdata, Hlive]; done.
    + intros data r Hdata Hlive. unfold record. by rewrite Hdata, Hlive.
Qed.

(** C6. The configuration [getCities] gives to [axios.get] has no timeout,
    so a call the provider never answers stays pending.  A call that is
    rejected resolves its branch to the placeholder record, and the
    request is answered exactly when every per-city call settles; one
    pending branch leaves it without a response. *)
Theorem no_timeout_configured st net key req :
  Weather.timeout (config key) = None
  ∧ (∀ city, asked net key city = Weather.Silent →
       withWeather net key city = Weather.Pending)
  ∧ (∀ city m, asked net key city = Weather.Fails m →
       withWeather net key city = Weather.Resolved (unavailable city))
  ∧ (is_Some (getCities st net key req) ↔
     ∀ city, city ∈ Mongoose.sort_addedAt_desc (Mongoose.find st (userId req)) →
             asked net key city ≠ Weather.Silent).
Proof.
  split_and!.
  - done.
  - intros city. apply withWeather_Pending.
  - intros city m Hm. rewrite withWeather_asked. by rewrite Hm.
  - split.
    + intros [r Hr] city Hin Hs.
      assert (getCities st net key req = None) as Hnone
        by (apply getCities_None; eauto).
      congruence.
    + intros Hall. destruct (getCities st net key req) as [r|] eqn:E; [eauto|].
      apply getCities_None in E as (city & Hin & Hs). by destruct (Hall city).
Qed.

End fan_out.

Section weather_record.

Implicit Types (city : N * Mongoose.City) (data : Weather.TimelineData).




End weather_record.

(** ** The scenario, run *)

Section scenario.

Import Scenario.

(** Bob names the id of Alice's Paris: her document stays as it is. *)
Lemma data_isolation_witness :
  fst (toggleFavorite st3 (request bob 10 ∅)) !! 10%N = Some paris
  ∧ fst (deleteCity st3 (request bob 10 ∅)) !! 10%N = Some paris.
Proof.
  destruct (data_isolation st3 oslo_fails None (request bob 10 ∅) 10%N paris)
    as (_ & _ & Htoggle & _ & Hdelete).
  - vm_compute. reflexivity.
  - vm_compute. discriminate.
  - split; assumption.
Defined.

(** The call for Oslo fails: Alice still gets both of her cities. *)
Lemma failure_isolation_witness :
  ∃ cs, getCities st3 oslo_fails None (request alice 0 ∅)
        = Some {| status := 200;
                  json := JListing (filter (λ c, isFavorite c = true) cs) cs |}
        ∧ length cs = 2%nat.
Proof.
  destruct (failure_isolation st3 oslo_fails None (request alice 0 ∅))
    as (cs & Hanswer & Hlen & _).
  - intros city _. unfold asked, oslo_fails. case_decide; discriminate.
  - exists cs. split; [exact Hanswer|]. rewrite Hlen. vm_compute. reflexivity.
Defined.

(** Alice adds Paris a second time. *)
Lemma createCity_duplicate_witness :
  createCity st1 13 3000 (request alice 0 (named "Paris"))
  = (st1, {| status := 400; json := JMessage "City already added" |}).
Proof.
  destruct (createCity_duplicate st1 13 3000 (request alice 0 (named "Paris"))
              10%N paris) as (_ & _ & Hanswer & _).
  - apply reachable_create, reachable_empty.
  - vm_compute. reflexivity.
  - vm_compute. reflexivity.
  - vm_compute. reflexivity.
  - exact Hanswer.
Defined.

(** Alice names the id of Bob's Rome, then an id nobody has. *)
Lemma notFound_exactly_witness :
  toggleFavorite st3 (request alice 12 ∅) = (st3, NotFound)
  ∧ toggleFavorite st3 (request alice 12 ∅)
    = toggleFavorite st3 (request alice 99 ∅)
  ∧ deleteCity st3 (request alice 12 ∅) = deleteCity st3 (request alice 99 ∅).
Proof.
  destruct (notFound_exactly st3 (request alice 12 ∅))
    as (_ & _ & Hiff & _ & Hsame & _).
  destruct (Hsame (request alice 99 ∅) 12%N 99%N
              {| Mongoose.userId := bob; Mongoose.cityName := "Rome";
                 Mongoose.country := None; Mongoose.favorite := false;
                 Mongoose.addedAt := 1500 |}) as [Ht Hd].
  - reflexivity.
  - vm_compute. reflexivity.
  - vm_compute. discriminate.
  - reflexivity.
  - vm_compute. reflexivity.
  - split_and!; [|exact Ht|exact Hd].
    apply Hiff. exists 12%N. split; [reflexivity|]. intros (d & Hd' & Hu).
    vm_compute in Hd'. injection Hd' as <-. discriminate Hu.
Defined.

(** C4, refuted as stated: no city has the id [abc], for Alice or for
    anyone, and both handlers answer 500 with the cast error's message
    instead of 404. *)
Lemma malformed_id_answered_500 :
  toggleFavorite st3 (request_raw alice "abc" ∅) = (st3, CastFailed "abc")
  ∧ deleteCity st3 (request_raw alice "abc" ∅) = (st3, CastFailed "abc")
  ∧ status (CastFailed "abc") = 500
  ∧ status (snd (toggleFavorite st3 (request alice 99 ∅))) = 404.
Proof. vm_compute. done. Qed.

(** Alice toggles Oslo twice. *)
Lemma toggleFavorite_involutive_witness :
  fst (toggleFavorite (fst (toggleFavorite st3 (request alice 11 ∅)))
         (request alice 11 ∅)) = st3.
Proof.
  destruct (toggleFavorite_involutive st3 (request alice 11 ∅) 11%N oslo)
    as (_ & _ & Hback & _).
  - reflexivity.
  - vm_compute. reflexivity.
  - vm_compute. reflexivity.
  - exact Hback.
Defined.

(** Alice's listing, with the call for Oslo failing. *)
Lemma favorites_partition_witness :
  ∃ favs cs,
    getCities st3 oslo_fails None (request alice 0 ∅)
    = Some {| status := 200; json := JListing favs cs |}
    ∧ favs = filter (λ c, isFavorite c = true) cs
    ∧ _id <$> cs = [11%N; 10%N].
Proof.
  destruct (getCities st3 oslo_fails None (request alice 0 ∅)) as [r|] eqn:E.
  - destruct (favorites_partition st3 oslo_fails None (request alice 0 ∅) r E)
      as (favs & cs & -> & Hfavs & _ & _ & Hids & _ & _).
    exists favs, cs. split_and!; [reflexivity|exact Hfavs|].
    rewrite Hids. vm_compute. reflexivity.
  - vm_compute in E. discriminate E.
Defined.

(** A body that names another owner changes nothing. *)
Lemma createCity_owner_from_identity_witness :
  createCity st1 13 3000
    (request alice 0 (<["userId" := "2"]> (named "Rome")))
  = createCity st1 13 3000 (request alice 0 (named "Rome")).
Proof.
  destruct (createCity_owner_from_identity st1 13 3000
              (request alice 0 (named "Rome"))
              (request alice 0 (<["userId" := "2"]> (named "Rome"))))
    as (Hsame & _).
  - reflexivity.
  - vm_compute. reflexivity.
  - vm_compute. reflexivity.
  - exact Hsame.
Defined.



(** C6, refuted as stated: the provider never answers for Oslo, the branch
    of Oslo stays pending and Alice's request gets no response. *)
Lemma silent_provider_hangs :
  Weather.timeout (config None) = None
  ∧ withWeather oslo_silent None (11%N, oslo) = Weather.Pending
  ∧ getCities st3 oslo_silent None (request alice 0 ∅) = None.
Proof. vm_compute. done. Qed.

End scenario.

(** ** How the handlers compose *)

Section compositions.

Implicit Types (st : gmap N Mongoose.City) (d : Mongoose.City).
Implicit Types (city : N * Mongoose.City) (req : Request).

(** The ids a response of [getCities] shows, in [cities] and in
    [favorites], read off the collection. *)
Lemma response_ids st net key req r :
  getCities st net key req = Some r →
  ∃ cs,
    r = {| status := 200;
           json := JListing (filter (λ c, isFavorite c = true) cs) cs |}
    ∧ (∀ i, i ∈ _id <$> cs ↔
         ∃ d, st !! i = Some d ∧ Mongoose.userId d = userId req)
    ∧ (∀ i, i ∈ _id <$> filter (λ c, isFavorite c = true) cs ↔
         ∃ d, st !! i = Some d ∧ Mongoose.userId d = userId req
              ∧ Mongoose.favorite d = true).
Proof.
  intros (cs & E & ->)%getCities_Some. exists cs. split; [done|].
  assert (∀ i d, st !! i = Some d → Mongoose.userId d = userId req →
            ∃ c, c ∈ cs ∧ _id c = i ∧ isFavorite c = Mongoose.favorite d)
    as Hrecord.
  { intros i d Hd Hu.
    assert ((i, d) ∈ Mongoose.sort_addedAt_desc (Mongoose.find st (userId req)))
      as Hin by by apply listing_spec.
    apply (list_elem_of_fmap_2 (withWeather net key)) in Hin.
    rewrite E in Hin. apply list_elem_of_fmap in Hin as (c & Hc & Hin).
    apply withWeather_persisted in Hc as (Hid & _ & Hfav). eauto. }
  assert (∀ c, c ∈ cs →
            ∃ d, st !! _id c = Some d ∧ Mongoose.userId d = userId req
                 ∧ isFavorite c = Mongoose.favorite d) as Hstored.
  { intros c Hc.
    destruct (resolved_record _ _ _ _ _ E Hc) as ([j e] & Hin & Hw).
    apply withWeather_persisted in Hw as (-> & _ & ->).
    apply listing_spec in Hin as [He Hu]. eauto. }
  split; intros i; rewrite list_elem_of_fmap; split.
  - intros (c & -> & Hc). destruct (Hstored c Hc) as (d & ? & ? & _). eauto.
  - intros (d & Hd & Hu). destruct (Hrecord i d Hd Hu) as (c & ? & ? & _). eauto.
  - intros (c & -> & [Hfav Hc]%list_elem_of_filter).
    destruct (Hstored c Hc) as (d & ? & ? & Hf). exists d. by rewrite <- Hf.
  - intros (d & Hd & Hu & Hfav).
    destruct (Hrecord i d Hd Hu) as (c & Hc & Hi & Hf).
    exists c. split; [done|]. apply list_elem_of_filter. by rewrite Hf.
Qed.

(** X1. A create call with a non-empty [cityName], a fresh [_id] and no
    document of the same owner under that name is answered 201 with the
    new document: owner from [req.userId], name and country from the body,
    [favorite: false], [addedAt] the clock.  The document is stored under
    its id and no other entry changes; documents of other owners with the
    same name do not stand in the way. *)
Theorem createCity_created st id now req n :
  body req !! "cityName" = Some n → n ≠ "" → st !! id = None →
  (∀ j e, st !! j = Some e → Mongoose.userId e = userId req →
          Mongoose.cityName e ≠ n) →
  let doc := {| Mongoose.userId := userId req; Mongoose.cityName := n;
                Mongoose.country := body req !! "country";
                Mongoose.favorite := false; Mongoose.addedAt := now |} in
  snd (createCity st id now req) = {| status := 201; json := JCity (id, doc) |}
  ∧ fst (createCity st id now req) !! id = Some doc
  ∧ (∀ j, j ≠ id → fst (createCity st id now req) !! j = st !! j)
  ∧ size (fst (createCity st id now req)) = S (size st).
Proof.
  intros Hn Hne Hid Hfree doc. rewrite createCity_cases.
  assert (Mongoose.checkRequired (body req !! "cityName") = Some n) as ->
    by by apply checkRequired_Some.
  destruct (decide _) as [[[e He]|Htaken]|_].
  - congruence.
  - apply index_taken_spec in Htaken as (j & e & He & Hu & Hname).
    by destruct (Hfree j e He Hu).
  - simpl. split_and!; [done|by rewrite lookup_insert_eq| |].
    + intros j Hj. by rewrite lookup_insert_ne.
    + by apply map_size_insert_None.
Qed.


(** X3. After a create call answered 201, every answer of [getCities] to
    the same user shows the new city in [cities] and not in
    [favorites]. *)
Theorem created_city_listed st id now req net key req' r :
  status (snd (createCity st id now req)) = 201 →
  userId req' = userId req →
  getCities (fst (createCity st id now req)) net key req' = Some r →
  ∃ favs cs, r = {| status := 200; json := JListing favs cs |}
             ∧ id ∈ _id <$> cs ∧ (id ∉ _id <$> favs).
Proof.
  rewrite createCity_cases.
  destruct (Mongoose.checkRequired _) as [n|]; [|done].
  destruct (decide _); [done|]. simpl. intros _ Hu Hr.
  apply response_ids in Hr as (cs & -> & Hcs & Hfavs).
  eexists _, cs. split; [done|]. split.
  - apply Hcs. eexists. by rewrite lookup_insert_eq.
  - intros (e & He & _ & Hfav)%Hfavs.
    rewrite lookup_insert_eq in He. by injection He as <-.
Qed.

(** X4. After a toggle of one of the user's cities, every answer of
    [getCities] to that user shows the city in [cities], and shows it in
    [favorites] exactly when it was not a favorite before. *)
Theorem toggled_city_listed st req id d net key req' r :
  params_id req = Mongoose.ObjectIdString id →
  st !! id = Some d → Mongoose.userId d = userId req →
  userId req' = userId req →
  getCities (fst (toggleFavorite st req)) net key req' = Some r →
  ∃ favs cs, r = {| status := 200; json := JListing favs cs |}
             ∧ id ∈ _id <$> cs
             ∧ (id ∈ _id <$> favs ↔ Mongoose.favorite d = false).
Proof.
  intros Hp Hd Hu Hu' Hr. rewrite (toggleFavorite_found _ _ _ _ Hp Hd Hu) in Hr.
  simpl in Hr. apply response_ids in Hr as (cs & -> & Hcs & Hfavs).
  eexists _, cs. split; [done|]. split.
  - apply Hcs. eexists. rewrite lookup_insert_eq. split; [done|]. simpl.
    congruence.
  - rewrite Hfavs. split.
    + intros (e & He & _ & Hfav). rewrite lookup_insert_eq in He.
      injection He as <-. simpl in Hfav. by apply negb_true_iff.
    + intros Hfav. eexists. rewrite lookup_insert_eq.
      split_and!; [done|simpl; congruence|]. simpl. by rewrite Hfav.
Qed.

Lemma deleted_id_gone st req id :
  params_id req = Mongoose.ObjectIdString id →
  ¬ ∃ d, fst (deleteCity st req) !! id = Some d
         ∧ Mongoose.userId d = userId req.
Proof.
  intros Hp.
  destruct (request_cases st req)
    as [(raw & Hp')|[(id' & Hp' & Hno)|(id' & e & Hp' & He & Hu)]].
  - congruence.
  - assert (id' = id) as -> by congruence.
    by rewrite (deleteCity_absent _ _ _ Hp' Hno).
  - assert (id' = id) as -> by congruence.
    rewrite (deleteCity_found _ _ _ _ Hp' He Hu). simpl.
    rewrite lookup_delete_eq. by intros (? & ? & _).
Qed.

(** X5. After a delete call, whatever it answered, the named id is in no
    listing of the caller and in no answer of [getCities] to the caller;
    every other entry of the collection is as before. *)
Theorem deleted_city_not_listed st req :
  let st' := fst (deleteCity st req) in
  (∀ id d, params_id req = Mongoose.ObjectIdString id →
     (id, d) ∉ Mongoose.sort_addedAt_desc (Mongoose.find st' (userId req)))
  ∧ (∀ id net key req' r favs cs,
       params_id req = Mongoose.ObjectIdString id →
       userId req' = userId req → getCities st' net key req' = Some r →
       json r = JListing favs cs →
       (id ∉ _id <$> cs) ∧ (id ∉ _id <$> favs))
  ∧ (∀ j, params_id req ≠ Mongoose.ObjectIdString j → st' !! j = st !! j).
Proof.
  intros st'. split_and!.
  - intros id d Hp [Hd Hu]%listing_spec.
    apply (deleted_id_gone st req id Hp). eauto.
  - intros id net key req' r favs cs Hp Hu (cs' & -> & Hcs & Hfavs)%response_ids.
    intros [= <- <-]. rewrite Hcs, Hfavs, Hu.
    pose proof (deleted_id_gone st req id Hp) as Hgone. split.
    + done.
    + intros (e & ? & ? & _). apply Hgone. eauto.
  - intros j Hj. unfold st'.
    destruct (request_cases st req)
      as [(raw & Hp)|[(id & Hp & Hno)|(id & e & Hp & He & Hu)]].
    + by rewrite (deleteCity_malformed _ _ _ Hp).
    + by rewrite (deleteCity_absent _ _ _ Hp Hno).
    + rewrite (deleteCity_found _ _ _ _ Hp He Hu). simpl.
      rewrite lookup_delete_ne; [done|]. intros <-. by destruct Hj.
Qed.

(** X6. A delete is final: after a delete call, whatever it answered, a
    second delete and a toggle with the same parameter by the same user
    write nothing and are never answered 200: the answer is 404 when the
    parameter is an ObjectId, and the cast error's 500 when it is not. *)
Theorem deleteCity_twice st req req' :
  let st' := fst (deleteCity st req) in
  let refused :=
    match params_id req with
    | Mongoose.ObjectIdString _ => NotFound
    | Mongoose.NotObjectId raw => CastFailed raw
    end in
  userId req' = userId req → params_id req' = params_id req →
  deleteCity st' req' = (st', refused)
  ∧ toggleFavorite st' req' = (st', refused)
  ∧ status refused ≠ 200.
Proof.
  intros st' refused Hu Hid. unfold refused.
  destruct (params_id req) as [id|raw] eqn:Hp.
  - pose proof (deleted_id_gone st req id Hp) as Hgone.
    rewrite <- Hu in Hgone. split_and!; [| |done].
    + by apply (deleteCity_absent _ _ id).
    + by apply (toggleFavorite_absent _ _ id).
  - split_and!; [| |done].
    + by apply deleteCity_malformed.
    + by apply toggleFavorite_malformed.
Qed.

(** X7. A deleted city can be added again: once the user's city is
    deleted, a create call by that user with the same name and an unused
    [_id] is answered 201. *)
Theorem deleted_city_added_again st req pid d id now req' :
  reachable st →
  params_id req = Mongoose.ObjectIdString pid →
  st !! pid = Some d → Mongoose.userId d = userId req →
  userId req' = userId req →
  body req' !! "cityName" = Some (Mongoose.cityName d) →
  fst (deleteCity st req) !! id = None →
  status (snd (createCity (fst (deleteCity st req)) id now req')) = 201
  ∧ (Mongoose.cityName <$> fst (createCity (fst (deleteCity st req)) id now req') !! id)
    = Some (Mongoose.cityName d).
Proof.
  intros [Hv Hunique]%reachable_invariants Hp Hd Hu Hu' Hname Hid.
  rewrite (deleteCity_found _ _ _ _ Hp Hd Hu) in *. simpl in *.
  rewrite createCity_cases.
  assert (Mongoose.checkRequired (body req' !! "cityName")
          = Some (Mongoose.cityName d)) as ->.
  { apply checkRequired_Some. split; [done|]. by apply (Hv _ _ Hd). }
  destruct (decide _) as [[[e He]|Htaken]|_].
  - congruence.
  - apply index_taken_spec in Htaken as (j & e & He & Hown & Hn).
    apply lookup_delete_Some in He as [Hj He].
    destruct Hj. symmetry. apply (Hunique j pid e d); congruence.
  - simpl. by rewrite lookup_insert_eq.
Qed.

(** X8. A toggle of one of the user's cities changes that document's
    [favorite] flag and nothing else: its owner, name, country and
    [addedAt] stay, the answer shows the document as it is now stored, and
    every other entry of the collection, the user's other cities
    included, is as before. *)
Theorem toggleFavorite_only_flag st req id d :
  params_id req = Mongoose.ObjectIdString id →
  st !! id = Some d → Mongoose.userId d = userId req →
  ∃ d', fst (toggleFavorite st req) !! id = Some d'
        ∧ snd (toggleFavorite st req)
          = {| status := 200; json := JCity (id, d') |}
        ∧ Mongoose.favorite d' = negb (Mongoose.favorite d)
        ∧ Mongoose.userId d' = Mongoose.userId d
        ∧ Mongoose.cityName d' = Mongoose.cityName d
        ∧ Mongoose.country d' = Mongoose.country d
        ∧ Mongoose.addedAt d' = Mongoose.addedAt d
        ∧ (∀ j, j ≠ id → fst (toggleFavorite st req) !! j = st !! j)
        ∧ dom (fst (toggleFavorite st req)) = dom st.
Proof.
  intros Hp Hd Hu. rewrite (toggleFavorite_found _ _ _ _ Hp Hd Hu). simpl.
  eexists. rewrite lookup_insert_eq. split_and!; try done.
  - intros j Hj. by rewrite lookup_insert_ne.
  - rewrite dom_insert_L. apply elem_of_dom_2 in Hd. set_solver.
Qed.

(** X9. No request changes the documents of another owner: a create, a
    toggle or a delete made with one identity neither adds, removes nor
    alters a document whose owner is someone else. *)
Theorem other_owner_unaffected st id now req j e :
  Mongoose.userId e ≠ userId req →
  (fst (createCity st id now req) !! j = Some e ↔ st !! j = Some e)
  ∧ (fst (toggleFavorite st req) !! j = Some e ↔ st !! j = Some e)
  ∧ (fst (deleteCity st req) !! j = Some e ↔ st !! j = Some e).
Proof.
  intros Hne. split_and!.
  - rewrite createCity_cases.
    destruct (Mongoose.checkRequired _) as [n|]; [|done].
    destruct (decide _) as [|Hfree]; [done|]. simpl.
    rewrite lookup_insert_Some. split.
    + intros [[_ <-]|[_ ?]]; [by destruct Hne|done].
    + intros He. right. split; [|done]. intros <-.
      destruct Hfree. left. eauto.
  - destruct (request_cases st req)
      as [(raw & Hp)|[(pid & Hp & Hno)|(pid & d & Hp & Hd & Hu)]];
      [by rewrite (toggleFavorite_malformed _ _ _ Hp)
      |by rewrite (toggleFavorite_absent _ _ _ Hp Hno)|].
    rewrite (toggleFavorite_found _ _ _ _ Hp Hd Hu). simpl.
    rewrite lookup_insert_Some. split.
    + intros [[_ <-]|[_ ?]]; [|done]. simpl in Hne. by destruct Hne.
    + intros He. right. split; [|done]. intros <-. congruence.
  - destruct (request_cases st req)
      as [(raw & Hp)|[(pid & Hp & Hno)|(pid & d & Hp & Hd & Hu)]];
      [by rewrite (deleteCity_malformed _ _ _ Hp)
      |by rewrite (deleteCity_absent _ _ _ Hp Hno)|].
    rewrite (deleteCity_found _ _ _ _ Hp Hd Hu). simpl.
    rewrite lookup_delete_Some. split; [by intros [_ ?]|].
    intros He. split; [|done]. intros <-. congruence.
Qed.

(** X10. In a collection the handlers produced, no listing names a city
    twice: the documents of an owner's listing have distinct ids and
    distinct names, and so do the records of every answer of
    [getCities]. *)
Theorem listing_names_distinct st net key req r :
  reachable st → getCities st net key req = Some r →
  NoDup (fst <$> Mongoose.sort_addedAt_desc (Mongoose.find st (userId req)))
  ∧ NoDup ((λ city, Mongoose.cityName (snd city))
             <$> Mongoose.sort_addedAt_desc (Mongoose.find st (userId req)))
  ∧ ∃ favs cs, r = {| status := 200; json := JListing favs cs |}
               ∧ NoDup (_id <$> cs) ∧ NoDup (cityName <$> cs).
Proof.
  intros [_ Hunique]%reachable_invariants (cs & E & ->)%getCities_Some.
  set (cities := Mongoose.sort_addedAt_desc (Mongoose.find st (userId req))) in *.
  assert (NoDup cities) as Hnodup.
  { unfold cities, Mongoose.sort_addedAt_desc, Mongoose.find.
    rewrite (merge_sort_Permutation Mongoose.newer_first).
    apply NoDup_filter, NoDup_map_to_list. }
  assert (∀ i d, (i, d) ∈ cities → st !! i = Some d
                                   ∧ Mongoose.userId d = userId req) as Hin.
  { intros i d. apply listing_spec. }
  assert (NoDup (fst <$> cities)) as Hids.
  { apply NoDup_fmap_2_strong; [|done].
    intros [i d] [j e] [Hd _]%Hin [He _]%Hin. simpl. intros <-. congruence. }
  assert (NoDup ((λ city, Mongoose.cityName (snd city)) <$> cities)) as Hnames.
  { apply NoDup_fmap_2_strong; [|done].
    intros [i d] [j e] [Hd Hu]%Hin [He Hu']%Hin. simpl. intros Hn.
    assert (i = j) as <- by (apply (Hunique i j d e); congruence).
    congruence. }
  apply resolved_persisted in E as (Hcid & Hcname & _).
  split_and!; [done|done|]. eexists _, cs. split; [done|].
  by rewrite Hcid, Hcname.
Qed.

(** X11. A user without cities gets the empty listing, whatever the
    provider does: no weather call is made, so even a provider that never
    answers does not hold the response back. *)
Theorem getCities_no_cities st net key req :
  (∀ i d, st !! i = Some d → Mongoose.userId d ≠ userId req) →
  getCities st net key req
  = Some {| status := 200; json := JListing [] [] |}.
Proof.
  intros Hnone.
  assert (Mongoose.sort_addedAt_desc (Mongoose.find st (userId req)) = [])
    as Hempty.
  { apply elem_of_nil_inv. intros [i d] [Hd Hu]%listing_spec.
    by destruct (Hnone i d). }
  unfold getCities. by rewrite Hempty.
Qed.

#[local] Existing Instance newer_first_trans.
#[local] Existing Instance newer_first_total.

(** X12. A city created with a clock later than the [addedAt] of all the
    owner's stored cities is the first of the owner's listing and the
    first record of every answer of [getCities] to the owner. *)
Theorem newest_city_first st id now req :
  status (snd (createCity st id now req)) = 201 →
  (∀ j e, st !! j = Some e → Mongoose.userId e = userId req →
          Mongoose.addedAt e < now) →
  let st' := fst (createCity st id now req) in
  (fst <$> head (Mongoose.sort_addedAt_desc (Mongoose.find st' (userId req))))
    = Some id
  ∧ (∀ net key r, getCities st' net key req = Some r →
       ∃ favs c cs, r = {| status := 200; json := JListing favs (c :: cs) |}
                    ∧ _id c = id).
Proof.
  intros Hok Hlater st'.
  set (cities := Mongoose.sort_addedAt_desc (Mongoose.find st' (userId req))).
  assert (∃ doc, st' !! id = Some doc ∧ Mongoose.userId doc = userId req
                 ∧ Mongoose.addedAt doc = now
                 ∧ ∀ j, j ≠ id → st' !! j = st !! j) as (doc & Hdoc & Hu & Hat & Hold).
  { unfold st'. revert Hok. rewrite createCity_cases.
    destruct (Mongoose.checkRequired _) as [n|]; [|done].
    destruct (decide _); [done|]. simpl. intros _.
    eexists. rewrite lookup_insert_eq. split_and!; try done.
    intros j Hj. by rewrite lookup_insert_ne. }
  assert ((id, doc) ∈ cities) as Hin by by apply listing_spec.
  assert (StronglySorted Mongoose.newer_first cities) as Hsorted
    by apply (StronglySorted_merge_sort Mongoose.newer_first).
  assert (fst <$> head cities = Some id) as Hhead.
  { destruct cities as [|[j e] rest] eqn:E; [by apply elem_of_nil in Hin|].
    simpl. f_equal.
    destruct (decide (j = id)) as [|Hj]; [done|exfalso].
    assert ((j, e) ∈ cities) as [He Hue]%listing_spec
      by (rewrite E; left).
    rewrite (Hold j Hj) in He. specialize (Hlater j e He Hue).
    apply elem_of_cons in Hin as [[= ? _]|Hin]; [done|].
    apply StronglySorted_inv in Hsorted as [_ Hall].
    rewrite Forall_forall in Hall. specialize (Hall _ Hin).
    unfold Mongoose.newer_first in Hall. simpl in Hall. lia. }
  split; [done|].
  intros net key r (cs & E & ->)%getCities_Some. fold cities in E.
  apply resolved_persisted in E as (Hids & _).
  destruct cities as [|[j e] rest]; [done|]. simpl in Hhead.
  injection Hhead as ->.
  destruct cs as [|c cs]; [done|]. csimpl in Hids. injection Hids as Hc _.
  eauto.
Qed.

Lemma toggleFavorite_store st req :
  fst (toggleFavorite st req) =
    match params_id req with
    | Mongoose.ObjectIdString id =>
        match st !! id with
        | Some d =>
            if decide (Mongoose.userId d = userId req)
            then <[id := Mongoose.set_favorite (negb (Mongoose.favorite d)) d]> st
            else st
        | None => st
        end
    | Mongoose.NotObjectId _ => st
    end.
Proof.
  unfold toggleFavorite, Mongoose.findOne.
  destruct (params_id req) as [id|raw]; [|done].
  destruct (st !! id) as [d|]; [|done].
  by destruct (decide _).
Qed.

(** X13. Toggles of different cities commute: two toggle requests that
    name different ids leave the same collection in either order,
    whoever makes them. *)
Theorem toggles_commute st req1 req2 :
  params_id req1 ≠ params_id req2 →
  fst (toggleFavorite (fst (toggleFavorite st req1)) req2)
  = fst (toggleFavorite (fst (toggleFavorite st req2)) req1).
Proof.
  intros Hne.
  rewrite !toggleFavorite_store.
  destruct (params_id req1) as [id1|raw1], (params_id req2) as [id2|raw2];
    try done.
  - assert (id1 ≠ id2) as Hid by congruence.
    destruct (st !! id1) as [d1|] eqn:E1;
      destruct (st !! id2) as [d2|] eqn:E2;
      repeat case_decide;
      rewrite ?lookup_insert_ne, ?E1, ?E2 by done;
      repeat case_decide; try done.
    by apply insert_insert_ne.
Qed.

End compositions.

(** ** The request to the provider and what comes back *)

Section provider_calls.

Import Stdlib.Strings.Ascii.

Implicit Types (city : N * Mongoose.City) (data : Weather.TimelineData).








Lemma hex_digit_inj (k k' : nat) :
  (k < 16)%nat → (k' < 16)%nat →
  Weather.hex_digit k = Weather.hex_digit k' → k = k'.
Proof.
  intros Hk Hk'.
  do 16 (destruct k as [|k];
    [do 16 (destruct k' as [|k'];
       [by (intros H; vm_compute in H) |]); lia |]); lia.
Qed.

Lemma escaped_char_inj (a b : ascii) :
  Weather.hex_digit (nat_of_ascii a / 16) = Weather.hex_digit (nat_of_ascii b / 16) →
  Weather.hex_digit (nat_of_ascii a mod 16)
    = Weather.hex_digit (nat_of_ascii b mod 16) →
  a = b.
Proof.
  intros Hhi Hlo.
  pose proof (nat_ascii_bounded a) as Ha. pose proof (nat_ascii_bounded b) as Hb.
  apply hex_digit_inj in Hhi;
    [|apply Nat.Div0.div_lt_upper_bound; lia..].
  apply hex_digit_inj in Hlo; [|apply Nat.mod_upper_bound; lia..].
  rewrite <- (ascii_nat_embedding a), <- (ascii_nat_embedding b). f_equal.
  rewrite (Nat.div_mod_eq (nat_of_ascii a) 16), (Nat.div_mod_eq (nat_of_ascii b) 16).
  lia.
Qed.

Lemma encodeURIComponent_inj (s s' : string) :
  Weather.encodeURIComponent s = Weather.encodeURIComponent s' → s = s'.
Proof.
  revert s'. induction s as [|a s IH]; intros [|b s']; simpl.
  - done.
  - by destruct (Weather.unreserved b).
  - by destruct (Weather.unreserved a).
  - destruct (Weather.unreserved a) eqn:Ha, (Weather.unreserved b) eqn:Hb.
    + intros [= -> ?]. f_equal. by apply IH.
    + intros [= -> _]. by vm_compute in Ha.
    + intros [= <- _]. by vm_compute in Hb.
    + intros H. injection H as Hhi Hlo Hrest.
      f_equal; [by apply escaped_char_inj|by apply IH].
Qed.

(** X16. Different city names give different provider URLs: the URL
    determines the name it was built from. *)
Theorem endpoint_inj (name name' : string) :
  endpoint name = endpoint name' ↔ name = name'.
Proof.
  split; [|by intros ->]. unfold endpoint. intros H.
  apply (inj (String.app timeline)) in H. by apply encodeURIComponent_inj.
Qed.

End provider_calls.

(** ** The scenario, continued *)

Section scenario_compositions.

Import Scenario.

Lemma st3_reachable : reachable st3.
Proof.
  unfold st3, st2, st1. do 3 apply reachable_create. apply reachable_empty.
Qed.

(** Bob adds Paris, which Alice already has. *)
Lemma createCity_created_witness :
  status (snd (createCity st3 13 3000 (request bob 0 (named "Paris")))) = 201
  ∧ size (fst (createCity st3 13 3000 (request bob 0 (named "Paris")))) = 4%nat.
Proof.
  destruct (createCity_created st3 13 3000 (request bob 0 (named "Paris"))
              "Paris") as (Hanswer & _ & _ & Hsize).
  - vm_compute. reflexivity.
  - discriminate.
  - vm_compute. reflexivity.
  - apply (bool_decide_unpack
             (map_Forall (λ _ e, Mongoose.userId e = bob
                                 → Mongoose.cityName e ≠ "Paris") st3)).
    vm_compute. exact I.
  - split; [by rewrite Hanswer|]. rewrite Hsize. vm_compute. reflexivity.
Defined.

(** Alice adds Lima and asks for her cities while Oslo's call fails. *)
Lemma created_city_listed_witness :
  ∃ favs cs,
    getCities (fst (createCity st3 13 3000 (request alice 0 (named "Lima"))))
      oslo_fails None (request alice 0 ∅)
    = Some {| status := 200; json := JListing favs cs |}
    ∧ 13%N ∈ _id <$> cs.
Proof.
  destruct (getCities (fst (createCity st3 13 3000 (request alice 0 (named "Lima"))))
              oslo_fails None (request alice 0 ∅)) as [r|] eqn:E.
  - destruct (created_city_listed st3 13 3000 (request alice 0 (named "Lima"))
                oslo_fails None (request alice 0 ∅) r)
      as (favs & cs & -> & Hin & _).
    + vm_compute. reflexivity.
    + reflexivity.
    + exact E.
    + exists favs, cs. split; [reflexivity|exact Hin].
  - vm_compute in E. discriminate E.
Defined.

(** Alice makes Oslo a favorite and asks for her cities. *)
Lemma toggled_city_listed_witness :
  ∃ favs cs,
    getCities (fst (toggleFavorite st3 (request alice 11 ∅)))
      oslo_fails None (request alice 0 ∅)
    = Some {| status := 200; json := JListing favs cs |}
    ∧ 11%N ∈ _id <$> favs.
Proof.
  destruct (getCities (fst (toggleFavorite st3 (request alice 11 ∅)))
              oslo_fails None (request alice 0 ∅)) as [r|] eqn:E.
  - destruct (toggled_city_listed st3 (request alice 11 ∅) 11%N oslo
                oslo_fails None (request alice 0 ∅) r)
      as (favs & cs & -> & _ & Hfav).
    + reflexivity.
    + vm_compute. reflexivity.
    + reflexivity.
    + reflexivity.
    + exact E.
    + exists favs, cs. split; [reflexivity|]. apply Hfav. reflexivity.
  - vm_compute in E. discriminate E.
Defined.

(** Alice deletes Oslo twice. *)
Lemma deleteCity_twice_witness :
  status (snd (deleteCity st3 (request alice 11 ∅))) = 200
  ∧ snd (deleteCity (fst (deleteCity st3 (request alice 11 ∅)))
           (request alice 11 ∅)) = NotFound.
Proof.
  destruct (deleteCity_twice st3 (request alice 11 ∅) (request alice 11 ∅))
    as [Hdelete _].
  - reflexivity.
  - reflexivity.
  - split; [vm_compute; reflexivity|]. by rewrite Hdelete.
Defined.

(** Alice deletes Oslo and adds it again, under the freed id. *)
Lemma deleted_city_added_again_witness :
  status (snd (createCity (fst (deleteCity st3 (request alice 11 ∅))) 11 4000
                 (request alice 0 (named "Oslo")))) = 201.
Proof.
  destruct (deleted_city_added_again st3 (request alice 11 ∅) 11%N oslo 11 4000
              (request alice 0 (named "Oslo"))) as [Hcreated _].
  - exact st3_reachable.
  - reflexivity.
  - vm_compute. reflexivity.
  - reflexivity.
  - reflexivity.
  - vm_compute. reflexivity.
  - vm_compute. reflexivity.
  - exact Hcreated.
Defined.

(** Alice makes Oslo a favorite: Paris is as before. *)
Lemma toggleFavorite_only_flag_witness :
  fst (toggleFavorite st3 (request alice 11 ∅)) !! 10%N = Some paris
  ∧ (Mongoose.favorite <$> fst (toggleFavorite st3 (request alice 11 ∅)) !! 11%N)
    = Some true.
Proof.
  destruct (toggleFavorite_only_flag st3 (request alice 11 ∅) 11%N oslo)
    as (d' & Hd' & _ & Hflag & _ & _ & _ & _ & Hothers & _).
  - reflexivity.
  - vm_compute. reflexivity.
  - reflexivity.
  - split.
    + rewrite Hothers by discriminate. vm_compute. reflexivity.
    + rewrite Hd'. simpl. by rewrite Hflag.
Defined.

(** Bob's Rome through three requests of Alice. *)
Lemma other_owner_unaffected_witness :
  fst (createCity st3 13 3000 (request alice 0 (named "Rome"))) !! 12%N
  = st3 !! 12%N
  ∧ fst (deleteCity st3 (request alice 12 ∅)) !! 12%N = st3 !! 12%N.
Proof.
  set (rome := {| Mongoose.userId := bob; Mongoose.cityName := "Rome";
                  Mongoose.country := None; Mongoose.favorite := false;
                  Mongoose.addedAt := 1500 |}).
  assert (st3 !! 12%N = Some rome) as Hrome by (vm_compute; reflexivity).
  destruct (other_owner_unaffected st3 13 3000
              (request alice 0 (named "Rome")) 12%N rome) as (Hcreate & _ & _).
  { vm_compute. discriminate. }
  destruct (other_owner_unaffected st3 13 3000 (request alice 12 ∅) 12%N rome)
    as (_ & _ & Hdelete).
  { vm_compute. discriminate. }
  rewrite Hrome. split; [by apply Hcreate|by apply Hdelete].
Defined.

(** Alice's listing has two ids and two names. *)
Lemma listing_names_distinct_witness :
  NoDup ((λ city, Mongoose.cityName (snd city))
           <$> Mongoose.sort_addedAt_desc (Mongoose.find st3 alice)).
Proof.
  destruct (getCities st3 oslo_fails None (request alice 0 ∅)) as [r|] eqn:E.
  - destruct (listing_names_distinct st3 oslo_fails None (request alice 0 ∅) r
                st3_reachable E) as (_ & Hnames & _).
    exact Hnames.
  - vm_compute in E. discriminate E.
Defined.

(** Bob has no city in the first collection; the provider never answers
    for Oslo. *)
Lemma getCities_no_cities_witness :
  getCities st1 oslo_silent None (request bob 0 ∅)
  = Some {| status := 200; json := JListing [] [] |}.
Proof.
  apply (getCities_no_cities st1 oslo_silent None (request bob 0 ∅)).
  apply (bool_decide_unpack
           (map_Forall (λ _ d, Mongoose.userId d ≠ bob) st1)).
  vm_compute. exact I.
Defined.

(** Alice adds Lima last. *)
Lemma newest_city_first_witness :
  (fst <$> head (Mongoose.sort_addedAt_desc
                   (Mongoose.find
                      (fst (createCity st3 13 3000
                              (request alice 0 (named "Lima"))))
                      alice))) = Some 13%N.
Proof.
  destruct (newest_city_first st3 13 3000 (request alice 0 (named "Lima")))
    as [Hhead _].
  - vm_compute. reflexivity.
  - apply (bool_decide_unpack
             (map_Forall (λ _ e, Mongoose.userId e = alice
                                 → Mongoose.addedAt e < 3000) st3)).
    vm_compute. exact I.
  - exact Hhead.
Defined.

(** Alice toggles Oslo and Paris in both orders. *)
Lemma toggles_commute_witness :
  fst (toggleFavorite (fst (toggleFavorite st3 (request alice 11 ∅)))
         (request alice 10 ∅))
  = fst (toggleFavorite (fst (toggleFavorite st3 (request alice 10 ∅)))
           (request alice 11 ∅)).
Proof.
  apply (toggles_commute st3 (request alice 11 ∅) (request alice 10 ∅)).
  discriminate.
Defined.


End scenario_compositions.
